(** * tvm: a Terraform version manager (src/tvm.py)

    A shallow embedding of [tvm.py] and the properties of its commands:
    [get_osinfo], [install_terraform], [use_terraform], [remove_unused],
    [remove_all] and [list_versions].

    The script is a sequence of calls into [os], [os.path], [shutil],
    [glob], [zipfile] and [requests].  Those libraries are modelled by a
    small file-system store, a console and a server; the script itself is
    transcribed statement by statement into a state-and-exception monad. *)

From Stdlib Require Import Ascii String ZArith.
From stdpp Require Import gmap strings list fin_maps sorting pretty.

Local Open Scope Z_scope.

(** ** Strings

    Python [str] values are modelled by [string] (a sequence of bytes: the
    UTF-8 encoding of the text).  f-strings become [+:+]. *)

(** [str.lower] on the ASCII letters.  No character outside ASCII lowers
    to one of the letters tested by the script ("y", "yes", "n", "no",
    "darwin", "linux"), so the bytes above 127 are left as they are. *)
Definition lower_ascii (c : ascii) : ascii :=
  let n := N_of_ascii c in
  if ((65 <=? n) && (n <=? 90))%N then ascii_of_N (n + 32) else c.

Fixpoint lower (s : string) : string :=
  match s with
  | EmptyString => EmptyString
  | String c r => String (lower_ascii c) (lower r)
  end.

(** [strip_prefix p s] is [Some r] when [s = p +:+ r]. *)
Fixpoint strip_prefix (p s : string) : option string :=
  match p, s with
  | EmptyString, _ => Some s
  | String a p', String b s' => if decide (a = b) then strip_prefix p' s' else None
  | String _ _, EmptyString => None
  end.

Definition startswith (p s : string) : bool :=
  match strip_prefix p s with Some _ => true | None => false end.

Fixpoint has_slash (s : string) : bool :=
  match s with
  | EmptyString => false
  | String c r => if decide (c = "/"%char) then true else has_slash r
  end.

(** [sub in s] on strings. *)
Fixpoint contains (sub s : string) : bool :=
  startswith sub s ||
  match s with
  | EmptyString => false
  | String _ r => contains sub r
  end.

(** [os.path.basename]: what follows the last slash. *)
Fixpoint basename (s : string) : string :=
  match s with
  | EmptyString => EmptyString
  | String c r =>
      if has_slash r then basename r
      else if decide (c = "/"%char) then r else s
  end.

(** The components of a path: what lies between the slashes.  Empty
    components ("//", a trailing slash) are dropped. *)
Fixpoint split_go (cur p : string) : list string :=
  match p with
  | EmptyString => if decide (cur = "") then [] else [cur]
  | String c r =>
      if decide (c = "/"%char)
      then (if decide (cur = "") then split_go "" r else cur :: split_go "" r)
      else split_go (cur +:+ String c "") r
  end.

Definition components (p : string) : list string := split_go "" p.

(** The path above: what precedes the last slash (the root is [""]). *)
Fixpoint parent (s : string) : string :=
  match s with
  | EmptyString => EmptyString
  | String c r => if has_slash r then String c (parent r) else EmptyString
  end.

(** The format specification [:<n]: pad with spaces on the right. *)
Fixpoint spaces (n : nat) : string :=
  match n with O => "" | S n' => String " " (spaces n') end.

Definition ljust (n : nat) (s : string) : string :=
  s +:+ spaces (n - String.length s).

(** A permission mode from its three octal digits: [octal 7 5 5] is
    Python's [0o755], read, write and execute for the owner, read and
    execute for the group and for the others. *)
Definition octal (u g o : Z) : Z :=
  Z.lor (Z.shiftl u 6) (Z.lor (Z.shiftl g 3) o).

(** ** The file system

    A store maps a path to what is there.  Paths are the strings the script
    builds; a symbolic link holds the path it points to (the script only
    ever creates links to absolute paths, [os.symlink(terraform_src, ...)]).

    What the model keeps and what it leaves out:
    - an entry is kept under the path by which the script reaches it,
      written in normal form as [os.path.expanduser] gives [TVM_PATH]:
      below a directory that is itself a symbolic link the entries are
      keyed by the link's own spelling, as [glob] and [os.stat] see them;
    - [os.stat], [open] and [os.chmod] follow a link in the last component
      of the path they are given, which is where the script places its
      links; [os.path.realpath] rewrites every component, so a link
      anywhere on the way shows in its result;
    - a call fails for what is or is not at a path (missing, already
      there, a directory, a link): ownership, read-only media and full
      disks are not modelled;
    - regular files carry a mode and their bytes, directories carry
      nothing. *)

Inductive node :=
| File (mode : Z) (data : string)
| Symlink (target : string)
| Dir.

Global Instance node_eq_dec : EqDecision node.
Proof. solve_decision. Defined.

(** The errors of the [OSError] family the model can produce. *)
Inductive os_error :=
| FileExistsError
| FileNotFoundError
| IsADirectoryError
| NotADirectoryError
| DirectoryNotEmpty
| TooManyLinks          (* ELOOP *)
| RmtreeOnSymlink       (* OSError("Cannot call rmtree on a symbolic link") *)
| ShutilError           (* shutil.Error: destination path already exists *)
| RequestException.     (* requests.exceptions.RequestException *)

Global Instance os_error_eq_dec : EqDecision os_error.
Proof. solve_decision. Defined.

(** [err.strerror]; an [OSError] built from a message alone has none, and
    the f-string prints it as "None". *)
Definition strerror (e : os_error) : string :=
  match e with
  | FileExistsError => "File exists"
  | FileNotFoundError => "No such file or directory"
  | IsADirectoryError => "Is a directory"
  | NotADirectoryError => "Not a directory"
  | DirectoryNotEmpty => "Directory not empty"
  | TooManyLinks => "Too many levels of symbolic links"
  | RmtreeOnSymlink | ShutilError | RequestException => "None"
  end.

Module FS.

(** The kernel gives up after this many links ([ELOOP]). *)
Definition MAXSYMLINKS : nat := 40.

(** Follow the links from [p]; [None] when [n] hops do not get through. *)
Fixpoint follow (fs : gmap string node) (n : nat) (p : string) : option string :=
  match fs !! p with
  | Some (Symlink t) =>
      match n with
      | O => None
      | S n' => follow fs n' t
      end
  | _ => Some p
  end.

(** [os.stat]: the node a path leads to, links followed. *)
Definition stat (fs : gmap string node) (p : string) : option node :=
  follow fs MAXSYMLINKS p ≫= (fs !!.).

Definition isfile (fs : gmap string node) (p : string) : bool :=
  match stat fs p with Some (File _ _) => true | _ => false end.

Definition isdir (fs : gmap string node) (p : string) : bool :=
  match stat fs p with Some Dir => true | _ => false end.

Definition exists_ (fs : gmap string node) (p : string) : bool :=
  match stat fs p with Some _ => true | None => false end.

(** [os.lstat]-based: the link itself. *)
Definition islink (fs : gmap string node) (p : string) : bool :=
  match fs !! p with Some (Symlink _) => true | _ => false end.

(** [os.path.realpath] canonicalises a path component by component
    (posixpath's [_joinrealpath]).  [walk fs hops s c rest] goes through
    [rest] from the directory spelled [s], whose canonical path is [c]:
    "." stays, ".." goes to the parent, a name that is a symbolic link is
    replaced by the canonical path of its target, any other name is
    appended.  The root is the empty prefix.  [hops] bounds the nesting
    of links within link targets. *)
Fixpoint walk (fs : gmap string node) (hops : nat)
    : string → string → list string → option (string * string) :=
  fix go (s c : string) (rest : list string) {struct rest} : option (string * string) :=
    match rest with
    | [] => Some (s, c)
    | name :: rest' =>
        if decide (name = ".") then go s c rest'
        else if decide (name = "..") then go (parent c) (parent c) rest'
        else
          let s' := s +:+ "/" +:+ name in
          match fs !! s' with
          | Some (Symlink t) =>
              match hops with
              | O => None
              | S h =>
                  match walk fs h "" "" (components t) with
                  | Some (_, ct) => go s' ct rest'
                  | None => None
                  end
              end
          | _ => go s' (c +:+ "/" +:+ name) rest'
          end
    end.

(** [os.path.realpath] has no hop limit of its own: links nest at most
    [size fs] deep unless they form a cycle.  On a cycle the path is
    returned as it was given. *)
Definition realpath (fs : gmap string node) (p : string) : string :=
  match walk fs (MAXSYMLINKS + size fs) "" "" (components p) with
  | Some (_, c) => if decide (c = "") then "/" else c
  | None => p
  end.

(** [k] lies below the directory [d]. *)
Definition under (d k : string) : bool := startswith (d +:+ "/") k.

Definition clear_subtree (d : string) (fs : gmap string node) : gmap string node :=
  filter (λ kv, under d kv.1 = false) fs.

(** [os.remove] / [os.unlink]: never follows a link, refuses a directory. *)
Definition remove (p : string) (fs : gmap string node) : os_error + gmap string node :=
  match fs !! p with
  | None => inl FileNotFoundError
  | Some Dir => inl IsADirectoryError
  | Some _ => inr (delete p fs)
  end.

(** [os.symlink(src, dst)]. *)
Definition symlink (src dst : string) (fs : gmap string node) : os_error + gmap string node :=
  match fs !! dst with
  | Some _ => inl FileExistsError
  | None => inr (<[dst := Symlink src]> fs)
  end.

(** [os.mkdir]: the new directory is empty.  Nothing lies below an absent
    path in a store that a file system can be in; clearing below [p] makes
    the directory empty in every store. *)
Definition mkdir (p : string) (fs : gmap string node) : os_error + gmap string node :=
  match fs !! p with
  | Some _ => inl FileExistsError
  | None => inr (<[p := Dir]> (clear_subtree p fs))
  end.

(** [shutil.rmtree]: refuses a symbolic link, removes a directory with
    everything below it. *)
Definition rmtree (p : string) (fs : gmap string node) : os_error + gmap string node :=
  match fs !! p with
  | None => inl FileNotFoundError
  | Some (Symlink _) => inl RmtreeOnSymlink
  | Some (File _ _) => inl NotADirectoryError
  | Some Dir => inr (delete p (clear_subtree p fs))
  end.

(** [open(p, "wb")] followed by [write(data)]: an existing file is
    truncated and keeps its mode, a new one gets [mode]. *)
Definition write (mode : Z) (p data : string) (fs : gmap string node)
  : os_error + gmap string node :=
  match follow fs MAXSYMLINKS p with
  | None => inl TooManyLinks
  | Some q =>
      match fs !! q with
      | Some Dir => inl IsADirectoryError
      | Some (File m _) => inr (<[q := File m data]> fs)
      | _ => inr (<[q := File mode data]> fs)
      end
  end.

(** [open(p, "rb").read()]. *)
Definition read (p : string) (fs : gmap string node) : os_error + string :=
  match follow fs MAXSYMLINKS p with
  | None => inl TooManyLinks
  | Some q =>
      match fs !! q with
      | Some (File _ d) => inr d
      | Some Dir => inl IsADirectoryError
      | _ => inl FileNotFoundError
      end
  end.

(** [os.chmod]: follows links.  Directories carry no mode in the model. *)
Definition chmod (p : string) (mode : Z) (fs : gmap string node)
  : os_error + gmap string node :=
  match follow fs MAXSYMLINKS p with
  | None => inl TooManyLinks
  | Some q =>
      match fs !! q with
      | Some (File _ d) => inr (<[q := File mode d]> fs)
      | Some Dir => inr fs
      | _ => inl FileNotFoundError
      end
  end.

(** Move the keys of a tree from [src] to [dst]. *)
Definition rekey (src dst k : string) : string :=
  if decide (k = src) then dst
  else match strip_prefix (src +:+ "/") k with
       | Some r => dst +:+ "/" +:+ r
       | None => k
       end.

Definition move_tree (src dst : string) (fs : gmap string node) : gmap string node :=
  list_to_map (prod_map (rekey src dst) id <$> map_to_list fs).

(** [os.rename(src, dst)] (POSIX): a file or a link replaces whatever
    non-directory is at [dst]; a directory needs [dst] free or an
    empty directory. *)
Definition rename (src dst : string) (fs : gmap string node)
  : os_error + gmap string node :=
  match fs !! src with
  | None => inl FileNotFoundError
  | Some Dir =>
      match fs !! dst with
      | None => inr (move_tree src dst fs)
      | Some Dir =>
          if decide (clear_subtree dst fs = fs)
          then inr (move_tree src dst (delete dst fs))
          else inl DirectoryNotEmpty
      | Some _ => inl NotADirectoryError
      end
  | Some n =>
      match fs !! dst with
      | Some Dir => inl IsADirectoryError
      | _ => inr (<[dst := n]> (delete src fs))
      end
  end.

End FS.

(** ** The process

    A run threads a [world]: the file system, the lines the operator is
    going to type, and a trace of what the process printed, read and
    fetched.  A statement either completes or aborts the run: [sys.exit]
    and an exception that nothing catches both unwind to the top. *)

Inductive exn :=
| OSError (err : os_error)
| UnboundLocalError (name : string)
| ValueError
| KeyError (key : string)
| EOFError
| BadZipFile.

Inductive event :=
| EPrint (line : string)
| EInput (prompt answer : string)
| EGet (url : string).

Record world := World {
  w_fs : gmap string node;
  w_stdin : list string;      (* what the operator will answer *)
  w_trace : list event;       (* most recent first *)
}.

Inductive abort :=
| Exit (code : Z)
| Raise (e : exn).

Inductive outcome (A : Type) :=
| Ok (a : A) (w : world)
| Abort (r : abort) (w : world).
Arguments Ok {A} a w.
Arguments Abort {A} r w.

Definition M (A : Type) : Type := world → outcome A.

Global Instance M_ret : MRet M := λ A a w, Ok a w.
Global Instance M_bind : MBind M := λ A B f m w,
  match m w with
  | Ok a w' => f a w'
  | Abort r w' => Abort r w'
  end.

Definition sys_exit {A} (code : Z) : M A := λ w, Abort (Exit code) w.
Definition raise {A} (e : exn) : M A := λ w, Abort (Raise e) w.

(** [try: body except OSError as err: handler] *)
Definition try_except_OSError (body : M unit) (handler : os_error → M unit) : M unit :=
  λ w, match body w with
       | Abort (Raise (OSError err)) w' => handler err w'
       | r => r
       end.

(** [for x in l: body] *)
Fixpoint for_ {A} (l : list A) (body : A → M unit) : M unit :=
  match l with
  | [] => mret tt
  | x :: r => body x ;; for_ r body
  end.

Definition print (line : string) : M unit :=
  λ w, Ok tt (World (w_fs w) (w_stdin w) (EPrint line :: w_trace w)).

Definition input (prompt : string) : M string :=
  λ w, match w_stdin w with
       | [] => Abort (Raise EOFError) w
       | a :: rest => Ok a (World (w_fs w) rest (EInput prompt a :: w_trace w))
       end.

(** Reading a local that no assignment has reached. *)
Definition local {A} (name : string) (v : option A) : M A :=
  match v with
  | Some a => mret a
  | None => raise (UnboundLocalError name)
  end.

Definition query {A} (f : gmap string node → A) : M A :=
  λ w, Ok (f (w_fs w)) w.

Definition syscall (f : gmap string node → os_error + gmap string node) : M unit :=
  λ w, match f (w_fs w) with
       | inl err => Abort (Raise (OSError err)) w
       | inr fs' => Ok tt (World fs' (w_stdin w) (w_trace w))
       end.

(** What the script is given from outside. *)
Inductive reply :=
| Reply (status_code : Z) (content : string)
| NoReply.                    (* timeout, connection refused, ... *)

(** An archive member; [z_mode] is the permission the archive records. *)
Record zip_member := ZipMember {
  z_name : string;
  z_mode : Z;
  z_data : string;
}.

Record env := Env {
  platform_system : string;                   (* platform.system() *)
  platform_machine : string;                  (* platform.machine() *)
  TVM_PATH : string;                          (* os.path.expanduser("~/.tvm") *)
  environ_PATH : option string;               (* os.environ["PATH"] *)
  umask : Z;
  server : string → reply;                    (* the release host *)
  zip_parse : string → option (list zip_member);  (* the zip format *)
}.

Module os.
Module path.
Definition isfile (p : string) : M bool := query (λ fs, FS.isfile fs p).
Definition isdir (p : string) : M bool := query (λ fs, FS.isdir fs p).
Definition islink (p : string) : M bool := query (λ fs, FS.islink fs p).
Definition exists_ (p : string) : M bool := query (λ fs, FS.exists_ fs p).
Definition realpath (p : string) : M string := query (λ fs, FS.realpath fs p).
End path.
Definition remove (p : string) : M unit := syscall (FS.remove p).
Definition mkdir (p : string) : M unit := syscall (FS.mkdir p).
Definition symlink (src dst : string) : M unit := syscall (FS.symlink src dst).
Definition chmod (p : string) (mode : Z) : M unit := syscall (FS.chmod p mode).
Definition rename (src dst : string) : M unit := syscall (FS.rename src dst).
(** [os.environ[key]] for the one variable the script reads. *)
Definition environ (e : env) (key : string) : M string :=
  match environ_PATH e with
  | Some v => mret v
  | None => raise (KeyError key)
  end.
End os.

Module shutil.
Definition rmtree (p : string) : M unit := syscall (FS.rmtree p).

(** [shutil.move(src, dst)]: into [dst] when it is a directory, else a
    rename onto it.  There is one file system, so the rename is never
    refused for crossing devices. *)
Definition move (src dst : string) : M unit :=
  d ← os.path.isdir dst;
  if d : bool then
    let real_dst := dst +:+ "/" +:+ basename src in
    x ← os.path.exists_ real_dst;
    if x : bool then raise (OSError ShutilError)
    else os.rename src real_dst
  else os.rename src dst.
End shutil.

Module glob.
(** [glob.glob(prefix + "*")], the star in the last component and no
    wildcard before it: the entries whose path is [prefix] followed by
    anything without a slash, whatever their kind.  The order is that of
    the directory scan, which nothing specifies; here it is the order of
    the store. *)
Definition matches (prefix k : string) : bool :=
  match strip_prefix prefix k with
  | Some r => negb (has_slash r)
  | None => false
  end.

Definition glob_in (fs : gmap string node) (prefix : string) : list string :=
  filter (λ k, matches prefix k = true) (map_to_list fs).*1.

Definition glob (prefix : string) : M (list string) :=
  query (λ fs, glob_in fs prefix).
End glob.

Module requests.
Definition get (e : env) (url : string) : M reply :=
  λ w, match server e url with
       | NoReply =>
           Abort (Raise (OSError RequestException))
                 (World (w_fs w) (w_stdin w) (EGet url :: w_trace w))
       | r => Ok r (World (w_fs w) (w_stdin w) (EGet url :: w_trace w))
       end.
End requests.

Module zipfile.
(** [with ZipFile(zip_file, "r") as zip_obj: zip_obj.extractall(dir)].
    Each member is written with [open(target, "wb")]: the mode the
    archive records is not applied.  The members are the files of the
    archive, named by one path component as in the release archives. *)
Definition extractall (e : env) (zip_file dir : string) : M unit :=
  λ w, match FS.read zip_file (w_fs w) with
       | inl err => Abort (Raise (OSError err)) w
       | inr data =>
           match zip_parse e data with
           | None => Abort (Raise BadZipFile) w
           | Some members =>
               for_ members (λ m,
                 syscall (FS.write (Z.ldiff (octal 6 6 6) (umask e))
                                   (dir +:+ "/" +:+ z_name m) (z_data m))) w
           end
       end.
End zipfile.

(** [with open(p, "wb") as file: file.write(data)] *)
Definition write_file (e : env) (p data : string) : M unit :=
  syscall (FS.write (Z.ldiff (octal 6 6 6) (umask e)) p data).

(** ** The script *)

Definition tab : string := String "009" "".
Definition newline : string := String "010" "".
Definition dquote : string := String "034" "".

(** [a in (x, y)] on strings. *)
Definition among (a : string) (l : list string) : bool := bool_decide (a ∈ l).

(** *** [get_osinfo] (lines 16-33) *)

Definition get_osinfo (e : env) : M string :=
  let user_os := platform_system e in
  let user_arch := platform_machine e in
  user_os ← (if among user_os ["Darwin"; "Linux"]
             then mret (lower user_os)
             else print (user_os +:+ " is not supported. Quitting.") ;;
                  sys_exit 1);
  let user_arch := if among user_arch ["arm64"; "aarch64"]
                   then "arm64" else "amd64" in
  mret (user_os +:+ "_" +:+ user_arch).

(** *** [install_terraform] (lines 36-93)

    The body of the loop is cut at its blank lines into the steps the
    specification numbers; [install_version] runs them in order. *)

Section install_version.
Context (e : env) (osinfo version : string).

Definition temp_dir : string := TVM_PATH e +:+ "/tmp".
Definition file_url : string :=
  "https://releases.hashicorp.com/terraform/" +:+ version +:+
  "/terraform_" +:+ version +:+ "_" +:+ osinfo +:+ ".zip".
Definition zip_file : string :=
  temp_dir +:+ "/terraform_" +:+ version +:+ "_" +:+ osinfo +:+ ".zip".
Definition file_src : string := temp_dir +:+ "/terraform".
Definition file_dst : string :=
  TVM_PATH e +:+ "/terraform_" +:+ version +:+ "_" +:+ osinfo.

(** lines 48-54 *)
Definition confirm_overwrite : M unit :=
  present ← os.path.isfile file_dst;
  if present : bool then
    download_prompt ← input ("Terraform v" +:+ version +:+
      " already exists. Do you want to download it again? [y/N]: ");
    if negb (among (lower download_prompt) ["y"; "yes"]) then
      print "Quitting." ;; sys_exit 0
    else mret tt
  else mret tt.

(** lines 56-63 *)
Definition make_temp_dir : M unit :=
  present ← os.path.isdir temp_dir;
  if negb present then os.mkdir temp_dir
  else
    try_except_OSError
      (shutil.rmtree temp_dir ;; os.mkdir temp_dir)
      (λ err, print ("Error: " +:+ temp_dir +:+ " : " +:+ strerror err)).

(** lines 65-75 *)
Definition download : M string :=
  print ("Downloading from " +:+ file_url +:+ "...") ;;
  resp ← requests.get e file_url;
  match resp with
  | Reply status_code content =>
      if decide (status_code = 403) then
        print "ERROR: Invalid Terraform version." ;; sys_exit 1
      else if decide (status_code ≠ 200) then
        print ("ERROR: Request not successful. Response code: " +:+
               pretty status_code) ;;
        sys_exit 1
      else mret content
  | NoReply => raise (OSError RequestException)
  end.

(** lines 76-77 *)
Definition save_archive (file_data : string) : M unit :=
  write_file e zip_file file_data.

(** lines 79-84 *)
Definition extract_binary : M unit :=
  print "Decompressing zip file..." ;;
  zipfile.extractall e zip_file temp_dir ;;
  (* ZipFile does not preserve file permissions *)
  os.chmod file_src (octal 7 5 5).

(** lines 86-87 *)
Definition move_binary : M unit :=
  print ("Moving the binary to " +:+ TVM_PATH e) ;;
  shutil.move file_src file_dst.

(** lines 89-93 *)
Definition clean_temp_dir : M unit :=
  print "Cleaning up temp directory..." ;;
  try_except_OSError
    (shutil.rmtree temp_dir)
    (λ err, print ("Error: " +:+ temp_dir +:+ " : " +:+ strerror err)).

Definition install_version : M unit :=
  confirm_overwrite ;;
  make_temp_dir ;;
  file_data ← download;
  save_archive file_data ;;
  extract_binary ;;
  move_binary ;;
  clean_temp_dir.
End install_version.

Definition install_terraform (e : env) (versions : list string) : M unit :=
  osinfo ← get_osinfo e;
  for_ versions (install_version e osinfo).

(** *** [use_terraform] (lines 96-124) *)

Definition use_terraform (e : env) (version : string) : M unit :=
  osinfo ← get_osinfo e;
  let terraform_src := TVM_PATH e +:+ "/terraform_" +:+ version +:+ "_" +:+ osinfo in
  let terraform_dst := TVM_PATH e +:+ "/terraform" in
  present ← os.path.isfile terraform_src;
  (if negb present then
     download_prompt ← input ("Terraform v" +:+ version +:+
       " cannot be found locally. Do you want to download? [Y/n]: ");
     (if among (lower download_prompt) ["n"; "no"] then
        print "Quitting." ;; sys_exit 0
      else mret tt) ;;
     install_terraform e [version]
   else mret tt) ;;
  linked ← os.path.isfile terraform_dst;
  (if linked : bool then
     print "Removing existing symbolic link..." ;;
     os.remove terraform_dst
   else mret tt) ;;
  print ("Creating a symbolic link for " +:+ terraform_src +:+ " to " +:+
         terraform_dst) ;;
  os.symlink terraform_src terraform_dst ;;
  user_path ← os.environ e "PATH";
  if negb (contains (TVM_PATH e) user_path) then
    print (newline +:+ "Warning: tvm directory is not in PATH.") ;;
    print "Please add tvm directory to the path to use Terraform binaries:" ;;
    print (tab +:+ "export PATH=" +:+ dquote +:+ TVM_PATH e +:+ ":$PATH" +:+ dquote)
  else mret tt.

(** *** [remove_unused] (lines 127-140) *)

Definition remove_unused (e : env) : M unit :=
  filelist ← glob.glob (TVM_PATH e +:+ "/terraform_");
  let active_tf_file := TVM_PATH e +:+ "/terraform" in
  a ← os.path.isfile active_tf_file;
  b ← os.path.islink active_tf_file;
  symlinked_file ← (if a && b then
                      target ← os.path.realpath active_tf_file;
                      mret (Some target)
                    else mret None);
  for_ filelist (λ item,
    target ← local "symlinked_file" symlinked_file;
    if decide (item = target) then mret tt      (* continue *)
    else print ("Removing: " +:+ item) ;;
         os.remove item).

(** *** [remove_all] (lines 143-150) *)

Definition remove_all (e : env) : M unit :=
  filelist ← glob.glob (TVM_PATH e +:+ "/terraform");
  for_ filelist (λ item,
    print ("Removing: " +:+ item) ;;
    os.remove item).

(** *** [list_versions] (lines 153-175) *)

(** Descending order on strings.  The paths of a listing are distinct, so
    there is one descending arrangement and any sorting procedure yields
    what [sorted(..., reverse=True)] does. *)
Definition str_ge (a b : string) : Prop := String.le b a.

Global Instance str_ge_dec : RelDecision str_ge.
Proof. intros a b. unfold str_ge. apply _. Defined.

Definition sorted_reverse (l : list string) : list string :=
  merge_sort str_ge l.

(** [l.index(x)] *)
Definition index (x : string) (l : list string) : option nat :=
  fst <$> list_find (λ y, y = x) l.

(** The rows of the table: [active_list] zipped with [basename_list]. *)
Definition version_table (filelist : list string) (active_index : option nat)
  : list (string * string) :=
  let basename_list := basename <$> filelist in
  let active_list := replicate (length basename_list) "" in
  let active_list :=
    match active_index with              (* "active_index" in dir() *)
    | Some i => <[i := "  *"]> active_list
    | None => active_list
    end in
  zip active_list basename_list.

Definition list_versions (e : env) : M unit :=
  found ← glob.glob (TVM_PATH e +:+ "/terraform_");
  let filelist := sorted_reverse found in
  let active_tf_file := TVM_PATH e +:+ "/terraform" in
  a ← os.path.isfile active_tf_file;
  b ← os.path.islink active_tf_file;
  active_index ← (if a && b then
                    target ← os.path.realpath active_tf_file;
                    match index target filelist with
                    | Some i => mret (Some i)
                    | None => raise ValueError
                    end
                  else mret None);
  print (ljust 8 "ACTIVE" +:+ " " +:+ ljust 15 "VERSION") ;;
  for_ (version_table filelist active_index) (λ item,
    let '(is_active, version) := item in
    print (ljust 8 is_active +:+ " " +:+ ljust 10 version)).

(** *** Module level (lines 178-197) *)

Definition startup (e : env) : M unit :=
  present ← os.path.isdir (TVM_PATH e);
  if negb present then
    print ("tvm directory does not exist. Creating the directory " +:+
           dquote +:+ TVM_PATH e +:+ dquote +:+ "...") ;;
    os.mkdir (TVM_PATH e) ;;
    print "Please add tvm directory to the path to use Terraform binaries:" ;;
    print (tab +:+ "export PATH=" +:+ dquote +:+ TVM_PATH e +:+ ":$PATH" +:+ dquote)
  else mret tt.

Inductive command :=
| CmdInstall (versions : list string)
| CmdUse (version : string)
| CmdRemoveUnused
| CmdRemoveAll
| CmdList.

Definition main (e : env) (c : command) : M unit :=
  startup e ;;
  match c with
  | CmdInstall versions => install_terraform e versions
  | CmdUse version => use_terraform e version
  | CmdRemoveUnused => remove_unused e
  | CmdRemoveAll => remove_all e
  | CmdList => list_versions e
  end.

(** ** Vocabulary of the statements *)

(** The hosts [get_osinfo] accepts, and the tag it gives them. *)
Definition supported (e : env) : Prop :=
  platform_system e = "Darwin" ∨ platform_system e = "Linux".

Definition platform_tag (e : env) : string :=
  lower (platform_system e) +:+ "_" +:+
  (if among (platform_machine e) ["arm64"; "aarch64"] then "arm64" else "amd64").

(** The world [get_osinfo] exits in on any other host. *)
Definition unsupported (e : env) (w : world) : world :=
  World (w_fs w) (w_stdin w)
        (EPrint (platform_system e +:+ " is not supported. Quitting.") :: w_trace w).

(** The body of the loop of [remove_unused]. *)
Definition remove_unless (symlinked_file : option string) (item : string) : M unit :=
  target ← local "symlinked_file" symlinked_file;
  if decide (item = target) then mret tt
  else print ("Removing: " +:+ item) ;; os.remove item.

(** Lines 119-124 of [use_terraform]: the advice about [PATH]. *)
Definition path_advice (e : env) : M unit :=
  user_path ← os.environ e "PATH";
  if negb (contains (TVM_PATH e) user_path) then
    print (newline +:+ "Warning: tvm directory is not in PATH.") ;;
    print "Please add tvm directory to the path to use Terraform binaries:" ;;
    print (tab +:+ "export PATH=" +:+ dquote +:+ TVM_PATH e +:+ ":$PATH" +:+ dquote)
  else mret tt.

(** Lines 112-124 of [use_terraform]: what follows the check that the
    version is installed. *)
Definition repoint (e : env) (terraform_src : string) : M unit :=
  let terraform_dst := TVM_PATH e +:+ "/terraform" in
  linked ← os.path.isfile terraform_dst;
  (if linked : bool then
     print "Removing existing symbolic link..." ;;
     os.remove terraform_dst
   else mret tt) ;;
  print ("Creating a symbolic link for " +:+ terraform_src +:+ " to " +:+
         terraform_dst) ;;
  os.symlink terraform_src terraform_dst ;;
  path_advice e.

(** The world a run ends in, however it ends. *)
Definition world_of {A} (r : outcome A) : world :=
  match r with
  | Ok _ w => w
  | Abort _ w => w
  end.

(** From [w] to [w'] the process only printed: it read no answer and sent
    no request. *)
Definition only_printed (w w' : world) : Prop :=
  w_stdin w' = w_stdin w ∧
  ∃ lines, w_trace w' = (EPrint <$> lines) ++ w_trace w.






(** The prompts. *)
Definition overwrite_prompt (version : string) : string :=
  "Terraform v" +:+ version +:+
  " already exists. Do you want to download it again? [y/N]: ".

Definition download_prompt (version : string) : string :=
  "Terraform v" +:+ version +:+
  " cannot be found locally. Do you want to download? [Y/n]: ".

Definition said (w : world) (events : list event) : world :=
  World (w_fs w) (w_stdin w) (events ++ w_trace w).

(** ** Sample runs

    A Linux host on x86-64 whose release server knows version 1.5.0, and a
    few stores to run the commands on. *)

Definition zip_150 : string := "PK-terraform-1.5.0".

Definition linux_host : env := {|
  platform_system := "Linux";
  platform_machine := "x86_64";
  TVM_PATH := "/home/u/.tvm";
  environ_PATH := Some "/usr/bin:/home/u/.tvm";
  umask := octal 0 2 2;
  server := λ url,
    if decide (url = "https://releases.hashicorp.com/terraform/1.5.0/terraform_1.5.0_linux_amd64.zip")
    then Reply 200 zip_150
    else if decide (url = "https://releases.hashicorp.com/terraform/9.9.9/terraform_9.9.9_linux_amd64.zip")
    then Reply 403 ""
    else Reply 404 "";
  zip_parse := λ data,
    if decide (data = zip_150)
    then Some [ZipMember "terraform" (octal 6 4 4) "ELF-1.5.0"]
    else None;
|}.

Definition mac_host : env := {|
  platform_system := "Darwin";
  platform_machine := "arm64";
  TVM_PATH := "/Users/u/.tvm";
  environ_PATH := Some "/usr/bin";
  umask := octal 0 2 2;
  server := λ _, Reply 404 "";
  zip_parse := λ _, None;
|}.

Definition windows_host : env := {|
  platform_system := "Windows";
  platform_machine := "AMD64";
  TVM_PATH := "C:/Users/u/.tvm";
  environ_PATH := None;
  umask := 0;
  server := λ _, Reply 404 "";
  zip_parse := λ _, None;
|}.

(** A fresh managed directory. *)
Definition fresh : world :=
  World {[ "/home/u/.tvm" := Dir ]} [] [].

Definition bin_140 : string := "/home/u/.tvm/terraform_1.4.0_linux_amd64".
Definition bin_150 : string := "/home/u/.tvm/terraform_1.5.0_linux_amd64".
Definition active_link : string := "/home/u/.tvm/terraform".

(** Versions 1.4.0 and 1.5.0 installed, 1.5.0 active. *)
Definition two_versions : world :=
  World (<[ active_link := Symlink bin_150 ]>
         (<[ bin_150 := File (octal 7 5 5) "ELF-1.5.0" ]>
         (<[ bin_140 := File (octal 7 5 5) "ELF-1.4.0" ]>
          {[ "/home/u/.tvm" := Dir ]}))) [] [].

(** Version 1.4.0 installed, nothing active. *)
Definition no_link : world :=
  World (<[ bin_140 := File (octal 7 5 5) "ELF-1.4.0" ]>
          {[ "/home/u/.tvm" := Dir ]}) [] [].

(** The fresh directory with its scratch directory in place. *)
Definition fresh_tmp : world :=
  World (<[ "/home/u/.tvm/tmp" := Dir ]> {[ "/home/u/.tvm" := Dir ]}) [] [].

(** A scratch directory left behind as a symbolic link to a directory. *)
Definition linked_tmp : world :=
  World (<[ "/var/scratch" := Dir ]>
         (<[ "/home/u/.tvm/tmp" := Symlink "/var/scratch" ]>
          {[ "/home/u/.tvm" := Dir ]})) [] [].

(** A regular file where the scratch directory goes. *)
Definition blocked_tmp : world :=
  World (<[ "/home/u/.tvm/tmp" := File (octal 6 4 4) "" ]>
          {[ "/home/u/.tvm" := Dir ]}) [] [].

Definition url_150 : string :=
  "https://releases.hashicorp.com/terraform/1.5.0/terraform_1.5.0_linux_amd64.zip".


(** Version 1.5.0 installed; the active link points at a version that is
    no longer there. *)
Definition dangling_link : world :=
  World (<[ active_link := Symlink bin_140 ]>
         (<[ bin_150 := File (octal 7 5 5) "ELF-1.5.0" ]>
          {[ "/home/u/.tvm" := Dir ]})) [] [].





(** A release server that knows versions 1.4.0 and 1.5.0. *)
Definition zip_140 : string := "PK-terraform-1.4.0".

Definition url_140 : string :=
  "https://releases.hashicorp.com/terraform/1.4.0/terraform_1.4.0_linux_amd64.zip".

Definition two_releases : env := {|
  platform_system := "Linux";
  platform_machine := "x86_64";
  TVM_PATH := "/home/u/.tvm";
  environ_PATH := Some "/usr/bin";
  umask := octal 0 2 2;
  server := λ url,
    if decide (url = url_150) then Reply 200 zip_150
    else if decide (url = url_140) then Reply 200 zip_140
    else Reply 403 "";
  zip_parse := λ data,
    if decide (data = zip_150)
    then Some [ZipMember "LICENSE.txt" (octal 6 4 4) "BUSL";
               ZipMember "terraform" (octal 6 4 4) "ELF-1.5.0"]
    else if decide (data = zip_140)
    then Some [ZipMember "terraform" (octal 7 5 5) "ELF-1.4.0"]
    else None;
|}.

(** [two_versions] with an operator who agrees twice. *)
Definition two_versions_yes : world :=
  World (w_fs two_versions) ["y"; "YES"] [].

(** The body of the loop of [remove_all], and of [remove_unused] past the
    comparison. *)
Definition remove_item (item : string) : M unit :=
  print ("Removing: " +:+ item) ;; os.remove item.


Definition system_link : world :=
  World (<[ "/usr/bin/terraform" := File (octal 7 5 5) "ELF-sys" ]>
         (<[ active_link := Symlink "/usr/bin/terraform" ]>
          (w_fs two_versions))) [] [].






(** * Properties *)

(** ** Running the monad *)

Lemma bind_run {A B} (m : M A) (f : A → M B) (w : world) :
  (m ≫= f) w = match m w with Ok a w' => f a w' | Abort r w' => Abort r w' end.
Proof. reflexivity. Qed.

Lemma among_true (a : string) (l : list string) : a ∈ l → among a l = true.
Proof. intros. unfold among. by apply bool_decide_eq_true_2. Qed.

Lemma among_false (a : string) (l : list string) : a ∉ l → among a l = false.
Proof. intros. unfold among. by apply bool_decide_eq_false_2. Qed.

Lemma among_pair_true (a x y : string) : a = x ∨ a = y → among a [x; y] = true.
Proof. intros H. apply among_true. rewrite !elem_of_cons. tauto. Qed.

Lemma among_pair_false (a x y : string) : a ≠ x → a ≠ y → among a [x; y] = false.
Proof.
  intros H1 H2. apply among_false. rewrite !elem_of_cons, elem_of_nil. tauto.
Qed.

Lemma bind_ok {A B} (m : M A) (f : A → M B) (w w1 : world) (a : A) :
  m w = Ok a w1 → (m ≫= f) w = f a w1.
Proof. intros H. by rewrite bind_run, H. Qed.

Lemma bind_abort {A B} (m : M A) (f : A → M B) (w w1 : world) (r : abort) :
  m w = Abort r w1 → (m ≫= f) w = Abort r w1.
Proof. intros H. by rewrite bind_run, H. Qed.

Lemma bind_inv_ok {A B} (m : M A) (f : A → M B) (w w' : world) (b : B) :
  (m ≫= f) w = Ok b w' → ∃ a w1, m w = Ok a w1 ∧ f a w1 = Ok b w'.
Proof.
  rewrite bind_run. destruct (m w) as [a w1|r w1]; [|done].
  intros H. by exists a, w1.
Qed.

Lemma for_app {A} (l1 l2 : list A) (body : A → M unit) (w : world) :
  for_ (l1 ++ l2) body w = (for_ l1 body ;; for_ l2 body) w.
Proof.
  revert w. induction l1 as [|x l1 IH]; intros w; [done|].
  simpl. rewrite !bind_run. destruct (body x w) as [[] w1|r w1]; [|done].
  rewrite IH. by rewrite bind_run.
Qed.

(** ** [get_osinfo] *)

Lemma get_osinfo_supported (e : env) (w : world) :
  supported e → get_osinfo e w = Ok (platform_tag e) w.
Proof.
  intros Hos. unfold get_osinfo. rewrite bind_run.
  by rewrite (among_pair_true _ _ _ Hos).
Qed.

Lemma get_osinfo_unsupported (e : env) (w : world) :
  platform_system e ≠ "Darwin" → platform_system e ≠ "Linux" →
  get_osinfo e w = Abort (Exit 1) (unsupported e w).
Proof.
  intros H1 H2. unfold get_osinfo. rewrite bind_run.
  by rewrite (among_pair_false _ _ _ H1 H2).
Qed.

(** C6.  On a host whose system is "Darwin" or "Linux", [get_osinfo] returns
    the lower-cased system name ("darwin", "linux"), an underscore and
    "arm64" when the machine is "arm64" or "aarch64", "amd64" for every
    other machine, and changes nothing.  On every other system it prints a
    diagnostic and exits with code 1; [install_terraform] and
    [use_terraform], which call it first, exit there too, with the file
    system untouched and no request sent. *)
Theorem C6_platform_resolver (e : env) (w : world) :
  let os := platform_system e in
  let arch := platform_machine e in
  (lower "Darwin" = "darwin" ∧ lower "Linux" = "linux") ∧
  (os = "Darwin" ∨ os = "Linux" → arch = "arm64" ∨ arch = "aarch64" →
     get_osinfo e w = Ok (lower os +:+ "_" +:+ "arm64") w) ∧
  (os = "Darwin" ∨ os = "Linux" → arch ≠ "arm64" → arch ≠ "aarch64" →
     get_osinfo e w = Ok (lower os +:+ "_" +:+ "amd64") w) ∧
  (os ≠ "Darwin" → os ≠ "Linux" →
     get_osinfo e w = Abort (Exit 1) (unsupported e w) ∧
     (∀ versions, install_terraform e versions w = Abort (Exit 1) (unsupported e w)) ∧
     (∀ version, use_terraform e version w = Abort (Exit 1) (unsupported e w)) ∧
     w_fs (unsupported e w) = w_fs w ∧
     (∀ url, EGet url ∈ w_trace (unsupported e w) → EGet url ∈ w_trace w)).
Proof.
  intros os arch. split; [done|]. split; [|split].
  - intros Hos Harch.
    rewrite get_osinfo_supported by done.
    unfold platform_tag. by rewrite among_pair_true.
  - intros Hos H1 H2.
    rewrite get_osinfo_supported by done.
    unfold platform_tag. by rewrite among_pair_false.
  - intros H1 H2.
    assert (get_osinfo e w = Abort (Exit 1) (unsupported e w)) as Hq
      by by apply get_osinfo_unsupported.
    split; [done|]. split; [|split; [|split]].
    + intros versions. unfold install_terraform. by rewrite bind_run, Hq.
    + intros version. unfold use_terraform. by rewrite bind_run, Hq.
    + done.
    + intros url. simpl. rewrite elem_of_cons. by intros [?|?].
Qed.

Lemma C6_platform_resolver_witness :
  get_osinfo mac_host fresh = Ok "darwin_arm64" fresh ∧
  get_osinfo linux_host fresh = Ok "linux_amd64" fresh ∧
  install_terraform windows_host ["1.5.0"] fresh
    = Abort (Exit 1) (unsupported windows_host fresh).
Proof.
  split; [|split].
  - apply (C6_platform_resolver mac_host fresh); [by left | by left].
  - apply (C6_platform_resolver linux_host fresh); [by right | done | done].
  - apply (C6_platform_resolver windows_host fresh); done.
Defined.

(** ** Strings and paths *)



Lemma strip_prefix_app_l (a b s : string) :
  strip_prefix (a +:+ b) (a +:+ s) = strip_prefix b s.
Proof. induction a as [|c a IH]; simpl; [done|]. by rewrite decide_True. Qed.


Lemma startswith_app_l (d x y : string) :
  startswith (d +:+ x) (d +:+ y) = startswith x y.
Proof. unfold startswith. by rewrite strip_prefix_app_l. Qed.


(** ** The file system *)

Lemma follow_mono (fs : gmap string node) (n m : nat) (p q : string) :
  FS.follow fs n p = Some q → (n ≤ m)%nat → FS.follow fs m p = Some q.
Proof.
  revert m p. induction n as [|n IH]; intros m p; simpl.
  - destruct (fs !! p) as [[]|] eqn:Hp; try done;
      intros; destruct m; simpl; by rewrite Hp.
  - destruct (fs !! p) as [[]|] eqn:Hp;
      intros H Hle; destruct m as [|m]; simpl; rewrite ?Hp; try done; try lia.
    apply IH; [done|lia].
Qed.

Lemma follow_not_link (fs : gmap string node) (n : nat) (p q t : string) :
  FS.follow fs n p = Some q → fs !! q ≠ Some (Symlink t).
Proof.
  revert p. induction n as [|n IH]; intros p; simpl;
    destruct (fs !! p) as [[]|] eqn:Hp; try done;
    try (intros [= <-]; congruence).
  apply IH.
Qed.


Lemma stat_direct (fs : gmap string node) (p : string) (n : node) :
  fs !! p = Some n → (∀ t, n ≠ Symlink t) → FS.stat fs p = Some n.
Proof.
  intros Hp Hn. unfold FS.stat. simpl. rewrite Hp.
  destruct n; simpl; try done. by destruct (Hn target).
Qed.



(** ** [remove_unused] *)

Lemma remove_unused_run (e : env) (w : world) :
  let link := TVM_PATH e +:+ "/terraform" in
  remove_unused e w =
    for_ (glob.glob_in (w_fs w) (TVM_PATH e +:+ "/terraform_"))
         (remove_unless
            (if FS.isfile (w_fs w) link && FS.islink (w_fs w) link
             then Some (FS.realpath (w_fs w) link) else None)) w.
Proof.
  intros link. unfold remove_unused.
  unfold mbind, M_bind, mret, M_ret, os.path.isfile, os.path.islink, os.path.realpath, query. simpl. fold link. 
  destruct (FS.isfile (w_fs w) link && FS.islink (w_fs w) link); reflexivity.
Qed.


Lemma isfile_absent (fs : gmap string node) (p : string) :
  fs !! p = None → FS.isfile fs p = false.
Proof. intros H. unfold FS.isfile, FS.stat. simpl. by rewrite H; simpl; rewrite H. Qed.




(** C10.  When the active link is absent or does not resolve to a regular
    file, [remove_unused] with at least one entry named [terraform_*] stops
    on the first comparison with [UnboundLocalError], having removed and
    printed nothing; with no such entry it completes and changes nothing. *)
Theorem C10_remove_unused_no_link (e : env) (w : world) :
  let link := TVM_PATH e +:+ "/terraform" in
  let filelist := glob.glob_in (w_fs w) (TVM_PATH e +:+ "/terraform_") in
  w_fs w !! link = None ∨ FS.isfile (w_fs w) link = false →
  (filelist ≠ [] →
     remove_unused e w = Abort (Raise (UnboundLocalError "symlinked_file")) w) ∧
  (filelist = [] → remove_unused e w = Ok tt w).
Proof.
  intros link filelist Hlink.
  assert (FS.isfile (w_fs w) link = false) as Hfile.
  { destruct Hlink; [by apply isfile_absent|done]. }
  rewrite remove_unused_run. fold link filelist. rewrite Hfile. simpl.
  split.
  - by destruct filelist.
  - by intros ->.
Qed.

Lemma C10_remove_unused_no_link_witness :
  remove_unused linux_host no_link
    = Abort (Raise (UnboundLocalError "symlinked_file")) no_link ∧
  remove_unused linux_host fresh = Ok tt fresh.
Proof.
  split.
  - apply (C10_remove_unused_no_link linux_host no_link).
    + left. reflexivity.
    + vm_compute. discriminate.
  - apply (C10_remove_unused_no_link linux_host fresh).
    + left. reflexivity.
    + reflexivity.
Defined.
(** ** [install_terraform]: the batch *)

Lemma install_terraform_run (e : env) (versions : list string) (w : world) :
  supported e →
  install_terraform e versions w = for_ versions (install_version e (platform_tag e)) w.
Proof.
  intros Hos. unfold install_terraform.
  by rewrite (bind_ok _ _ _ _ _ (get_osinfo_supported e w Hos)).
Qed.

(** Once the versions before it are done, the batch is the iteration of
    the next version followed by the rest. *)
Lemma install_terraform_next (e : env) (pre rest : list string) (version : string)
    (w w1 : world) :
  supported e →
  install_terraform e pre w = Ok tt w1 →
  install_terraform e (pre ++ version :: rest) w =
    (install_version e (platform_tag e) version ;;
     for_ rest (install_version e (platform_tag e))) w1.
Proof.
  intros Hos Hpre. rewrite install_terraform_run in * by done.
  rewrite for_app. by rewrite (bind_ok _ _ _ _ _ Hpre).
Qed.

(** An iteration that aborts ends the batch there. *)
Lemma install_terraform_abort (e : env) (pre rest : list string) (version : string)
    (w w1 w2 : world) (r : abort) :
  supported e →
  install_terraform e pre w = Ok tt w1 →
  install_version e (platform_tag e) version w1 = Abort r w2 →
  install_terraform e (pre ++ version :: rest) w = Abort r w2.
Proof.
  intros Hos Hpre Hv. rewrite (install_terraform_next _ _ _ _ _ _ Hos Hpre).
  by apply bind_abort.
Qed.

(** *** Step 1: the overwrite prompt *)

Lemma confirm_overwrite_absent (e : env) (osinfo version : string) (w : world) :
  FS.isfile (w_fs w) (file_dst e osinfo version) = false →
  confirm_overwrite e osinfo version w = Ok tt w.
Proof.
  intros H. unfold confirm_overwrite, os.path.isfile, query.
  rewrite bind_run. by rewrite H.
Qed.

Lemma confirm_overwrite_yes (e : env) (osinfo version answer : string)
    (more : list string) (w : world) :
  FS.isfile (w_fs w) (file_dst e osinfo version) = true →
  w_stdin w = answer :: more →
  lower answer = "y" ∨ lower answer = "yes" →
  confirm_overwrite e osinfo version w =
    Ok tt (World (w_fs w) more (EInput (overwrite_prompt version) answer :: w_trace w)).
Proof.
  intros H Hin Hans. unfold confirm_overwrite, os.path.isfile, query.
  rewrite bind_run, H. rewrite bind_run. unfold input. rewrite Hin.
  by rewrite among_pair_true.
Qed.

Lemma confirm_overwrite_no (e : env) (osinfo version answer : string)
    (more : list string) (w : world) :
  FS.isfile (w_fs w) (file_dst e osinfo version) = true →
  w_stdin w = answer :: more →
  lower answer ≠ "y" → lower answer ≠ "yes" →
  confirm_overwrite e osinfo version w =
    Abort (Exit 0)
      (World (w_fs w) more
         (EPrint "Quitting." :: EInput (overwrite_prompt version) answer :: w_trace w)).
Proof.
  intros H Hin H1 H2. unfold confirm_overwrite, os.path.isfile, query.
  rewrite bind_run, H. rewrite bind_run. unfold input. rewrite Hin.
  by rewrite among_pair_false.
Qed.


(** *** Steps 3-4: the download *)

Lemma download_failure (e : env) (osinfo version content : string)
    (status_code : Z) (w : world) :
  server e (file_url osinfo version) = Reply status_code content →
  status_code ≠ 200 →
  download e osinfo version w =
    Abort (Exit 1)
      (said w [EPrint (if decide (status_code = 403)
                       then "ERROR: Invalid Terraform version."
                       else "ERROR: Request not successful. Response code: " +:+
                            pretty status_code);
               EGet (file_url osinfo version);
               EPrint ("Downloading from " +:+ file_url osinfo version +:+ "...")]).
Proof.
  intros Hreply Hne. unfold download. rewrite bind_run. simpl.
  rewrite bind_run. unfold requests.get. simpl. rewrite Hreply.
  destruct (decide (status_code = 403)); [done|].
  by rewrite decide_True.
Qed.

Lemma download_success (e : env) (osinfo version content : string) (w : world) :
  server e (file_url osinfo version) = Reply 200 content →
  download e osinfo version w =
    Ok content
      (said w [EGet (file_url osinfo version);
               EPrint ("Downloading from " +:+ file_url osinfo version +:+ "...")]).
Proof.
  intros Hreply. unfold download. rewrite bind_run. simpl.
  rewrite bind_run. unfold requests.get. simpl. by rewrite Hreply.
Qed.


Lemma install_fetch_failure (e : env) (pre rest : list string)
    (version content : string) (status_code : Z) (w w1 w2 : world) :
  supported e →
  install_terraform e pre w = Ok tt w1 →
  (confirm_overwrite e (platform_tag e) version ;; make_temp_dir e) w1 = Ok tt w2 →
  server e (file_url (platform_tag e) version) = Reply status_code content →
  status_code ≠ 200 →
  install_terraform e (pre ++ version :: rest) w =
    Abort (Exit 1)
      (said w2 [EPrint (if decide (status_code = 403)
                        then "ERROR: Invalid Terraform version."
                        else "ERROR: Request not successful. Response code: " +:+
                             pretty status_code);
                EGet (file_url (platform_tag e) version);
                EPrint ("Downloading from " +:+ file_url (platform_tag e) version +:+ "...")]).
Proof.
  intros Hos Hpre Hprep Hreply Hne.
  apply (install_terraform_abort _ _ _ _ _ w1); [done|done|].
  apply bind_inv_ok in Hprep as ([] & wa & Hc & Hm).
  unfold install_version.
  rewrite (bind_ok _ _ _ _ _ Hc), (bind_ok _ _ _ _ _ Hm).
  apply bind_abort. by eapply download_failure.
Qed.
(** C4.  In a batch whose earlier versions are done, once the iteration of
    a version has passed the overwrite prompt and prepared the scratch
    directory: a reply with status 403 ends the process with exit code 1
    after printing "ERROR: Invalid Terraform version."; a reply with any
    other status than 200 ends it with exit code 1 after printing the
    status code, a different message.  The file system is the one the
    scratch directory was prepared in, so no archive was written, and the
    rest of the batch is not looked at. *)
Theorem C4_fetch_failure (e : env) (pre rest : list string)
    (version content : string) (status_code : Z) (w w1 w2 : world) :
  let osinfo := platform_tag e in
  let url := file_url osinfo version in
  let downloading := EPrint ("Downloading from " +:+ url +:+ "...") in
  let generic := "ERROR: Request not successful. Response code: " +:+ pretty status_code in
  supported e →
  install_terraform e pre w = Ok tt w1 →
  (confirm_overwrite e osinfo version ;; make_temp_dir e) w1 = Ok tt w2 →
  server e url = Reply status_code content →
  status_code ≠ 200 →
  (status_code = 403 →
     install_terraform e (pre ++ version :: rest) w =
       Abort (Exit 1)
         (World (w_fs w2) (w_stdin w2)
            (EPrint "ERROR: Invalid Terraform version." :: EGet url ::
             downloading :: w_trace w2))) ∧
  (status_code ≠ 403 →
     install_terraform e (pre ++ version :: rest) w =
       Abort (Exit 1)
         (World (w_fs w2) (w_stdin w2)
            (EPrint generic :: EGet url :: downloading :: w_trace w2))) ∧
  "ERROR: Invalid Terraform version." ≠ generic.
Proof.
  intros osinfo url downloading generic Hos Hpre Hprep Hreply Hne.
  pose proof (install_fetch_failure e pre rest version content status_code
                w w1 w2 Hos Hpre Hprep Hreply Hne) as Hrun.
  split; [|split].
  - intros H403. rewrite Hrun. by rewrite decide_True.
  - intros H403. rewrite Hrun. by rewrite decide_False.
  - done.
Qed.

Lemma C4_fetch_failure_witness :
  (∃ w', install_terraform linux_host ["9.9.9"; "1.5.0"] fresh = Abort (Exit 1) w' ∧
         w_fs w' = w_fs fresh_tmp ∧
         head (w_trace w') = Some (EPrint "ERROR: Invalid Terraform version.")) ∧
  (∃ w', install_terraform linux_host ["0.0.1"; "1.5.0"] fresh = Abort (Exit 1) w' ∧
         w_fs w' = w_fs fresh_tmp ∧
         head (w_trace w') =
           Some (EPrint "ERROR: Request not successful. Response code: 404")).
Proof.
  split.
  - destruct (C4_fetch_failure linux_host [] ["1.5.0"] "9.9.9" "" 403
                fresh fresh fresh_tmp) as (H403 & _ & _).
    + by right.
    + reflexivity.
    + vm_compute. reflexivity.
    + reflexivity.
    + lia.
    + eexists. split; [apply H403; reflexivity|]. split; reflexivity.
  - destruct (C4_fetch_failure linux_host [] ["1.5.0"] "0.0.1" "" 404
                fresh fresh fresh_tmp) as (_ & H404 & _).
    + by right.
    + reflexivity.
    + vm_compute. reflexivity.
    + reflexivity.
    + lia.
    + eexists. split; [apply H404; lia|]. split; reflexivity.
Defined.
Lemma isfile_run (p : string) (w : world) :
  os.path.isfile p w = Ok (FS.isfile (w_fs w) p) w.
Proof. reflexivity. Qed.

Lemma isdir_run (p : string) (w : world) :
  os.path.isdir p w = Ok (FS.isdir (w_fs w) p) w.
Proof. reflexivity. Qed.

(** ** [use_terraform]: the three ways in *)

Lemma use_terraform_installed (e : env) (version : string) (w : world) :
  let terraform_src := TVM_PATH e +:+ "/terraform_" +:+ version +:+ "_" +:+ platform_tag e in
  supported e →
  FS.isfile (w_fs w) terraform_src = true →
  use_terraform e version w = repoint e terraform_src w.
Proof.
  intros src Hos Hfile. unfold use_terraform.
  rewrite (bind_ok _ _ _ _ _ (get_osinfo_supported e w Hos)).
  cbv beta zeta. rewrite (bind_ok _ _ _ _ _ (isfile_run _ w)).
  fold src. rewrite Hfile. reflexivity.
Qed.

Lemma use_terraform_decline (e : env) (version answer : string)
    (more : list string) (w : world) :
  let terraform_src := TVM_PATH e +:+ "/terraform_" +:+ version +:+ "_" +:+ platform_tag e in
  supported e →
  FS.isfile (w_fs w) terraform_src = false →
  w_stdin w = answer :: more →
  lower answer = "n" ∨ lower answer = "no" →
  use_terraform e version w =
    Abort (Exit 0)
      (World (w_fs w) more
         (EPrint "Quitting." :: EInput (download_prompt version) answer :: w_trace w)).
Proof.
  intros src Hos Hfile Hin Hans. unfold use_terraform.
  rewrite (bind_ok _ _ _ _ _ (get_osinfo_supported e w Hos)).
  cbv beta zeta. rewrite (bind_ok _ _ _ _ _ (isfile_run _ w)).
  fold src. rewrite Hfile. simpl. rewrite !bind_run. unfold input. rewrite Hin.
  by rewrite among_pair_true.
Qed.

Lemma use_terraform_download (e : env) (version answer : string)
    (more : list string) (w : world) :
  let terraform_src := TVM_PATH e +:+ "/terraform_" +:+ version +:+ "_" +:+ platform_tag e in
  supported e →
  FS.isfile (w_fs w) terraform_src = false →
  w_stdin w = answer :: more →
  lower answer ≠ "n" → lower answer ≠ "no" →
  use_terraform e version w =
    (install_terraform e [version] ;; repoint e terraform_src)
      (World (w_fs w) more (EInput (download_prompt version) answer :: w_trace w)).
Proof.
  intros src Hos Hfile Hin H1 H2. unfold use_terraform.
  rewrite (bind_ok _ _ _ _ _ (get_osinfo_supported e w Hos)).
  cbv beta zeta. rewrite (bind_ok _ _ _ _ _ (isfile_run _ w)).
  fold src. rewrite Hfile. simpl. rewrite !bind_run. unfold input. rewrite Hin.
  rewrite among_pair_false by done. simpl. rewrite !bind_run. simpl.
  by destruct (install_terraform e [version] _) as [[] ?|].
Qed.

(** C8.  Declining a prompt ends the process with exit code 0 and nothing
    else done.  In [install_terraform], when the file of a version exists,
    any answer that is not "y" or "yes" in some letter case exits there: the
    file system is as the earlier versions of the batch left it and the
    remaining versions are not looked at.  In [use_terraform], when the
    file of the version is missing, the answers "n" and "no" in any letter
    case exit with the file system untouched; every other answer, the empty
    one too, goes on to the installer.  The fatal errors are told apart by
    their exit code 1: an unsupported platform, a version the server
    forbids (403), and any other failed fetch. *)
Theorem C8_operator_declines :
  (∀ e pre rest version answer more w w1,
     supported e →
     install_terraform e pre w = Ok tt w1 →
     FS.isfile (w_fs w1) (file_dst e (platform_tag e) version) = true →
     w_stdin w1 = answer :: more →
     lower answer ≠ "y" → lower answer ≠ "yes" →
     install_terraform e (pre ++ version :: rest) w =
       Abort (Exit 0)
         (World (w_fs w1) more
            (EPrint "Quitting." :: EInput (overwrite_prompt version) answer ::
             w_trace w1))) ∧
  (∀ e version answer more w,
     supported e →
     FS.isfile (w_fs w) (file_dst e (platform_tag e) version) = false →
     w_stdin w = answer :: more →
     (lower answer = "n" ∨ lower answer = "no" →
        use_terraform e version w =
          Abort (Exit 0)
            (World (w_fs w) more
               (EPrint "Quitting." :: EInput (download_prompt version) answer ::
                w_trace w))) ∧
     (lower answer ≠ "n" → lower answer ≠ "no" →
        use_terraform e version w =
          (install_terraform e [version] ;;
           repoint e (file_dst e (platform_tag e) version))
            (World (w_fs w) more
               (EInput (download_prompt version) answer :: w_trace w)))) ∧
  (∀ e versions w,
     ¬ supported e →
     ∃ w', install_terraform e versions w = Abort (Exit 1) w') ∧
  (∀ e pre rest version content status_code w w1 w2,
     supported e →
     install_terraform e pre w = Ok tt w1 →
     (confirm_overwrite e (platform_tag e) version ;; make_temp_dir e) w1 = Ok tt w2 →
     server e (file_url (platform_tag e) version) = Reply status_code content →
     status_code ≠ 200 →
     ∃ w', install_terraform e (pre ++ version :: rest) w = Abort (Exit 1) w') ∧
  Exit 0 ≠ Exit 1.
Proof.
  split; [|split; [|split; [|split]]].
  - intros e pre rest version answer more w w1 Hos Hpre Hfile Hin H1 H2.
    apply (install_terraform_abort _ _ _ _ _ w1); [done|done|].
    unfold install_version. apply bind_abort.
    by apply confirm_overwrite_no.
  - intros e version answer more w Hos Hfile Hin. split.
    + intros Hans. by apply use_terraform_decline.
    + intros H1 H2. by apply use_terraform_download.
  - intros e versions w Hos. eexists. unfold install_terraform.
    apply bind_abort. apply get_osinfo_unsupported.
    + intros H. apply Hos. by left.
    + intros H. apply Hos. by right.
  - intros e pre rest version content status_code w w1 w2 Hos Hpre Hprep Hreply Hne.
    eexists. by eapply install_fetch_failure.
  - done.
Qed.

Lemma C8_operator_declines_witness :
  install_terraform linux_host ["1.4.0"; "1.5.0"]
      (World (w_fs two_versions) ["No"] []) =
    Abort (Exit 0)
      (World (w_fs two_versions) []
         [EPrint "Quitting."; EInput (overwrite_prompt "1.4.0") "No"]) ∧
  use_terraform linux_host "1.5.0" (World (w_fs no_link) ["NO"] []) =
    Abort (Exit 0)
      (World (w_fs no_link) []
         [EPrint "Quitting."; EInput (download_prompt "1.5.0") "NO"]).
Proof.
  destruct C8_operator_declines as (Hinstall & Huse & _).
  split.
  - apply (Hinstall linux_host [] ["1.5.0"] "1.4.0" "No" []
             (World (w_fs two_versions) ["No"] [])
             (World (w_fs two_versions) ["No"] [])).
    + by right.
    + reflexivity.
    + reflexivity.
    + reflexivity.
    + vm_compute. discriminate.
    + vm_compute. discriminate.
  - destruct (Huse linux_host "1.5.0" "NO" [] (World (w_fs no_link) ["NO"] []))
      as [Hdecline _].
    + by right.
    + reflexivity.
    + reflexivity.
    + apply Hdecline. right. reflexivity.
Defined.
(** *** Step 2: the scratch directory *)


Lemma make_temp_dir_blocked (e : env) (w : world) (n : node) :
  FS.isdir (w_fs w) (temp_dir e) = false →
  w_fs w !! temp_dir e = Some n →
  make_temp_dir e w = Abort (Raise (OSError FileExistsError)) w.
Proof.
  intros Hd Hn. unfold make_temp_dir.
  rewrite (bind_ok _ _ _ _ _ (isdir_run _ w)). rewrite Hd. simpl.
  unfold os.mkdir, syscall, FS.mkdir. by rewrite Hn.
Qed.

Lemma make_temp_dir_dir (e : env) (w : world) :
  w_fs w !! temp_dir e = Some Dir →
  make_temp_dir e w =
    Ok tt (World (<[temp_dir e := Dir]>
                    (FS.clear_subtree (temp_dir e)
                       (delete (temp_dir e) (FS.clear_subtree (temp_dir e) (w_fs w)))))
                 (w_stdin w) (w_trace w)).
Proof.
  intros Hd. unfold make_temp_dir.
  rewrite (bind_ok _ _ _ _ _ (isdir_run _ w)).
  unfold FS.isdir. rewrite (stat_direct _ _ Dir Hd) by done. simpl.
  unfold try_except_OSError. rewrite bind_run.
  unfold shutil.rmtree, os.mkdir, syscall, FS.rmtree, FS.mkdir. rewrite Hd. simpl.
  by rewrite lookup_delete_eq.
Qed.

Lemma make_temp_dir_link (e : env) (w : world) (t : string) :
  FS.isdir (w_fs w) (temp_dir e) = true →
  w_fs w !! temp_dir e = Some (Symlink t) →
  make_temp_dir e w =
    Ok tt (said w [EPrint ("Error: " +:+ temp_dir e +:+ " : " +:+ strerror RmtreeOnSymlink)]).
Proof.
  intros Hd Hl. unfold make_temp_dir.
  rewrite (bind_ok _ _ _ _ _ (isdir_run _ w)). rewrite Hd. simpl.
  unfold try_except_OSError. rewrite bind_run.
  unfold shutil.rmtree, syscall, FS.rmtree. by rewrite Hl.
Qed.

(** A directory is what [isdir] sees either directly or through a link. *)
Lemma isdir_cases (fs : gmap string node) (p : string) :
  FS.isdir fs p = true → fs !! p = Some Dir ∨ ∃ t, fs !! p = Some (Symlink t).
Proof.
  unfold FS.isdir, FS.stat. simpl.
  destruct (fs !! p) as [[m d|t|]|] eqn:Hp; simpl; rewrite ?Hp; try done.
  - intros _. right. by exists t.
  - intros _. by left.
Qed.

(** Clearing and recreating an existing scratch directory never stops the
    run: an [OSError] is printed and the iteration goes on. *)
Lemma make_temp_dir_guarded (e : env) (w : world) :
  FS.isdir (w_fs w) (temp_dir e) = true → ∃ w', make_temp_dir e w = Ok tt w'.
Proof.
  intros Hd. destruct (isdir_cases _ _ Hd) as [Hdir|[t Hl]].
  - eexists. by apply make_temp_dir_dir.
  - eexists. by eapply make_temp_dir_link.
Qed.

(** *** Step 8: the cleanup *)

Lemma clean_temp_dir_removed (e : env) (w : world) :
  w_fs w !! temp_dir e = Some Dir →
  clean_temp_dir e w =
    Ok tt (World (delete (temp_dir e) (FS.clear_subtree (temp_dir e) (w_fs w)))
                 (w_stdin w)
                 (EPrint "Cleaning up temp directory..." :: w_trace w)).
Proof.
  intros Hd. unfold clean_temp_dir. rewrite bind_run. simpl.
  unfold try_except_OSError, shutil.rmtree, syscall, FS.rmtree. simpl.
  by rewrite Hd.
Qed.

Lemma clean_temp_dir_failed (e : env) (w : world) :
  w_fs w !! temp_dir e ≠ Some Dir →
  ∃ err, clean_temp_dir e w =
    Ok tt (said w [EPrint ("Error: " +:+ temp_dir e +:+ " : " +:+ strerror err);
                   EPrint "Cleaning up temp directory..."]).
Proof.
  intros Hd. unfold clean_temp_dir. rewrite bind_run. simpl.
  unfold try_except_OSError, shutil.rmtree, syscall, FS.rmtree. simpl.
  destruct (w_fs w !! temp_dir e) as [[m d|t|]|] eqn:Hp; try done;
    eexists; reflexivity.
Qed.

Lemma clean_temp_dir_guarded (e : env) (w : world) :
  ∃ w', clean_temp_dir e w = Ok tt w'.
Proof.
  destruct (decide (w_fs w !! temp_dir e = Some Dir)) as [Hd|Hd].
  - eexists. by apply clean_temp_dir_removed.
  - destruct (clean_temp_dir_failed e w Hd) as [err Herr]. by eexists.
Qed.

(** C3 (amended).  In a batch whose earlier versions are done, an iteration
    that aborts ends the batch with the same outcome, the remaining
    versions untouched; and the iteration aborts as soon as one of its
    steps does: the overwrite prompt, the creation of the scratch
    directory, the download, saving the archive, extracting and marking
    the binary, moving it.  Two places are guarded instead: an [OSError]
    while clearing and recreating a scratch directory that already exists
    (step 2) and one in the final cleanup (step 8) are printed and the run
    goes on.  Creating the scratch directory when the path is taken by
    something that is not a directory is not guarded. *)
Theorem C3_batch_aborts (e : env) (pre rest : list string) (version : string)
    (w w1 : world) :
  let osinfo := platform_tag e in
  supported e →
  install_terraform e pre w = Ok tt w1 →
  (∀ r w2, install_version e osinfo version w1 = Abort r w2 →
           install_terraform e (pre ++ version :: rest) w = Abort r w2) ∧
  (∀ wa wb wc wd we data r w2,
     confirm_overwrite e osinfo version w1 = Abort r w2 ∨
     confirm_overwrite e osinfo version w1 = Ok tt wa ∧
     (make_temp_dir e wa = Abort r w2 ∨
      make_temp_dir e wa = Ok tt wb ∧
      (download e osinfo version wb = Abort r w2 ∨
       download e osinfo version wb = Ok data wc ∧
       (save_archive e osinfo version data wc = Abort r w2 ∨
        save_archive e osinfo version data wc = Ok tt wd ∧
        (extract_binary e osinfo version wd = Abort r w2 ∨
         extract_binary e osinfo version wd = Ok tt we ∧
         move_binary e osinfo version we = Abort r w2)))) →
     install_version e osinfo version w1 = Abort r w2) ∧
  (∀ w0, FS.isdir (w_fs w0) (temp_dir e) = true →
         ∃ w', make_temp_dir e w0 = Ok tt w') ∧
  (∀ w0, ∃ w', clean_temp_dir e w0 = Ok tt w') ∧
  (∀ w0 n, FS.isdir (w_fs w0) (temp_dir e) = false →
           w_fs w0 !! temp_dir e = Some n →
           make_temp_dir e w0 = Abort (Raise (OSError FileExistsError)) w0).
Proof.
  intros osinfo Hos Hpre. split; [|split; [|split; [|split]]].
  - intros r w2 Hv. by apply (install_terraform_abort _ _ _ _ _ w1).
  - intros wa wb wc wd we data r w2 Hsteps. unfold install_version.
    destruct Hsteps as [H|[Hc Hsteps]]; [by apply bind_abort|].
    rewrite (bind_ok _ _ _ _ _ Hc).
    destruct Hsteps as [H|[Hm Hsteps]]; [by apply bind_abort|].
    rewrite (bind_ok _ _ _ _ _ Hm).
    destruct Hsteps as [H|[Hd Hsteps]]; [by apply bind_abort|].
    rewrite (bind_ok _ _ _ _ _ Hd).
    destruct Hsteps as [H|[Hs Hsteps]]; [by apply bind_abort|].
    rewrite (bind_ok _ _ _ _ _ Hs).
    destruct Hsteps as [H|[Hx H]]; [by apply bind_abort|].
    rewrite (bind_ok _ _ _ _ _ Hx). by apply bind_abort.
  - intros w0. apply make_temp_dir_guarded.
  - intros w0. apply clean_temp_dir_guarded.
  - intros w0 n. apply make_temp_dir_blocked.
Qed.

Lemma C3_batch_aborts_witness :
  install_terraform linux_host ["9.9.9"; "1.5.0"] fresh =
    Abort (Exit 1)
      (said fresh_tmp
         [EPrint "ERROR: Invalid Terraform version.";
          EGet (file_url "linux_amd64" "9.9.9");
          EPrint ("Downloading from " +:+ file_url "linux_amd64" "9.9.9" +:+ "...")]) ∧
  (∃ w', make_temp_dir linux_host linked_tmp = Ok tt w') ∧
  make_temp_dir linux_host blocked_tmp =
    Abort (Raise (OSError FileExistsError)) blocked_tmp.
Proof.
  destruct (C3_batch_aborts linux_host [] ["1.5.0"] "9.9.9" fresh fresh)
    as (Hbatch & _ & Hguard & _ & Hblocked).
  - by right.
  - reflexivity.
  - split; [|split].
    + apply Hbatch. vm_compute. reflexivity.
    + apply Hguard. reflexivity.
    + apply (Hblocked blocked_tmp (File (octal 6 4 4) "")); reflexivity.
Defined.

(** C3 as stated fails.  With the scratch path a symbolic link to a
    directory, clearing it raises an [OSError]; it is caught and printed,
    and the run goes on to download and install the version. *)
Lemma C3_counterexample :
  (shutil.rmtree (temp_dir linux_host) ;; os.mkdir (temp_dir linux_host)) linked_tmp =
    Abort (Raise (OSError RmtreeOnSymlink)) linked_tmp ∧
  ∃ w', install_terraform linux_host ["1.5.0"] linked_tmp = Ok tt w' ∧
        w_fs w' !! bin_150 = Some (File (octal 7 5 5) "ELF-1.5.0") ∧
        EPrint "Error: /home/u/.tvm/tmp : None" ∈ w_trace w' ∧
        EGet (file_url "linux_amd64" "1.5.0") ∈ w_trace w'.
Proof.
  split; [reflexivity|].
  eexists. split; [vm_compute; reflexivity|].
  split; [reflexivity|]. split.
  - apply list_elem_of_In. vm_compute. tauto.
  - apply list_elem_of_In. vm_compute. tauto.
Qed.
(** ** Where the paths of the script lie *)











(** ** An installation, step by step *)













(** *** No step makes a directory of the scratch path

    When the scratch path is a symbolic link, clearing it fails and the
    run goes on; nothing later turns the path into a directory, so the
    final cleanup fails on it as well. *)










(** *** Where the installed bytes come from *)







(** *** What an iteration installs, whatever the scratch directory was

    When the scratch path is a symbolic link to a directory, clearing it
    fails and the archive is unpacked over what an earlier run left
    there.  The steps still end with a regular file at the destination,
    provided the path of the unpacked binary is free or a regular file. *)








(** *** The result of an iteration *)






(** ** [use_terraform]: repointing the link *)

Lemma only_printed_refl (w : world) : only_printed w w.
Proof. split; [done|]. by exists []. Qed.

Lemma only_printed_said (w : world) (lines : list string) :
  only_printed w (said w (EPrint <$> lines)).
Proof. split; [done|]. by exists lines. Qed.

Lemma only_printed_trans (w1 w2 w3 : world) :
  only_printed w1 w2 → only_printed w2 w3 → only_printed w1 w3.
Proof.
  intros [Hin1 [l1 Ht1]] [Hin2 [l2 Ht2]]. split; [congruence|].
  exists (l2 ++ l1). by rewrite Ht2, Ht1, fmap_app, app_assoc.
Qed.

Lemma only_printed_no_input (w w' : world) (ev : event) :
  only_printed w w' → ev ∈ w_trace w' →
  ev ∈ w_trace w ∨ ∃ line, ev = EPrint line.
Proof.
  intros [_ [lines ->]] [Hin|Hin]%elem_of_app; [|by left].
  right. apply list_elem_of_fmap in Hin as (line & -> & _). by exists line.
Qed.

(** The advice either prints or, without [PATH], raises [KeyError]; the
    file system is not touched. *)
Lemma path_advice_run (e : env) (w : world) :
  w_fs (world_of (path_advice e w)) = w_fs w ∧
  only_printed w (world_of (path_advice e w)) ∧
  (is_Some (environ_PATH e) →
   path_advice e w = Ok tt (world_of (path_advice e w))).
Proof.
  unfold path_advice, os.environ. rewrite bind_run.
  destruct (environ_PATH e) as [p|]; simpl.
  - destruct (negb _); simpl.
    + split; [done|]. split; [|done].
      apply (only_printed_said w
        [tab +:+ "export PATH=" +:+ dquote +:+ TVM_PATH e +:+ ":$PATH" +:+ dquote;
         "Please add tvm directory to the path to use Terraform binaries:";
         newline +:+ "Warning: tvm directory is not in PATH."]).
    + split; [done|]. split; [apply only_printed_refl|done].
  - split; [done|]. split; [apply only_printed_refl|]. by intros [? ?].
Qed.

(** A path [isfile] accepts holds a file or a link, never a directory. *)
Lemma isfile_removable (fs : gmap string node) (p : string) :
  FS.isfile fs p = true → ∃ n, fs !! p = Some n ∧ n ≠ Dir.
Proof.
  unfold FS.isfile, FS.stat. simpl.
  destruct (fs !! p) as [[m d|t|]|] eqn:Hp; simpl; rewrite ?Hp; try done.
  - intros _. by exists (File m d).
  - intros _. by exists (Symlink t).
Qed.

(** When the link path resolves to a regular file it is removed, and the
    new link is made. *)
Lemma repoint_linked (e : env) (src : string) (w : world) :
  let link := TVM_PATH e +:+ "/terraform" in
  FS.isfile (w_fs w) link = true →
  repoint e src w =
    path_advice e
      (World (<[link := Symlink src]> (w_fs w)) (w_stdin w)
         (EPrint ("Creating a symbolic link for " +:+ src +:+ " to " +:+ link) ::
          EPrint "Removing existing symbolic link..." :: w_trace w)).
Proof.
  intros link Hfile. unfold repoint. fold link.
  rewrite (bind_ok _ _ _ _ _ (isfile_run _ _)). rewrite Hfile.
  destruct (isfile_removable _ _ Hfile) as (n & Hn & Hdir).
  rewrite !bind_run. simpl. unfold os.remove, syscall, FS.remove. simpl.
  rewrite Hn.
  destruct n; [| |done]; simpl; rewrite !bind_run; simpl;
    unfold os.symlink, syscall, FS.symlink; simpl;
    rewrite bind_run; simpl; rewrite lookup_delete_eq; simpl;
    by rewrite insert_delete_eq.
Qed.

(** When nothing is at the link path the link is made. *)
Lemma repoint_free (e : env) (src : string) (w : world) :
  let link := TVM_PATH e +:+ "/terraform" in
  w_fs w !! link = None →
  repoint e src w =
    path_advice e
      (World (<[link := Symlink src]> (w_fs w)) (w_stdin w)
         (EPrint ("Creating a symbolic link for " +:+ src +:+ " to " +:+ link) ::
          w_trace w)).
Proof.
  intros link Hfree. unfold repoint. fold link.
  rewrite (bind_ok _ _ _ _ _ (isfile_run _ _)).
  rewrite (isfile_absent _ _ Hfree).
  rewrite !bind_run. simpl. unfold os.symlink, syscall, FS.symlink. simpl.
  repeat (rewrite bind_run; simpl). by rewrite Hfree.
Qed.

(** When something is at the link path that does not resolve to a regular
    file (a link to nowhere, a directory) it is not removed, and
    [os.symlink] raises [FileExistsError]. *)
Lemma repoint_blocked (e : env) (src : string) (w : world) (n : node) :
  let link := TVM_PATH e +:+ "/terraform" in
  FS.isfile (w_fs w) link = false →
  w_fs w !! link = Some n →
  repoint e src w =
    Abort (Raise (OSError FileExistsError))
      (said w [EPrint ("Creating a symbolic link for " +:+ src +:+ " to " +:+ link)]).
Proof.
  intros link Hfile Hn. unfold repoint. fold link.
  rewrite (bind_ok _ _ _ _ _ (isfile_run _ _)). rewrite Hfile.
  rewrite !bind_run. simpl. unfold os.symlink, syscall, FS.symlink. simpl.
  repeat (rewrite bind_run; simpl). by rewrite Hn.
Qed.

(** Whenever [repoint] returns, the link is in place and nothing else of
    the file system changed. *)
Lemma repoint_ok_inv (e : env) (src : string) (w w' : world) :
  repoint e src w = Ok tt w' →
  w_fs w' = <[TVM_PATH e +:+ "/terraform" := Symlink src]> (w_fs w) ∧
  only_printed w w'.
Proof.
  set (link := TVM_PATH e +:+ "/terraform"). intros Hrun.
  assert (∀ w0, path_advice e w0 = Ok tt w' →
                w_fs w' = w_fs w0 ∧ only_printed w0 w') as Hadvice.
  { intros w0 H0. destruct (path_advice_run e w0) as (Hfs & Hpr & _).
    rewrite H0 in Hfs, Hpr. done. }
  destruct (FS.isfile (w_fs w) link) eqn:Hfile.
  - rewrite (repoint_linked _ _ _ Hfile) in Hrun.
    destruct (Hadvice _ Hrun) as [Hfs Hpr]. split; [done|].
    eapply only_printed_trans; [|exact Hpr].
    apply (only_printed_said w
      ["Creating a symbolic link for " +:+ src +:+ " to " +:+ link;
       "Removing existing symbolic link..."]).
  - destruct (w_fs w !! link) as [n|] eqn:Hn.
    + by rewrite (repoint_blocked _ _ _ _ Hfile Hn) in Hrun.
    + rewrite (repoint_free _ _ _ Hn) in Hrun.
      destruct (Hadvice _ Hrun) as [Hfs Hpr]. split; [done|].
      eapply only_printed_trans; [|exact Hpr].
      apply (only_printed_said w
        ["Creating a symbolic link for " +:+ src +:+ " to " +:+ link]).
Qed.


(** *** Real paths *)
















(** With the version installed and something at the link path that does
    not resolve to a regular file, [use_terraform] stops at [os.symlink]. *)
Lemma use_terraform_blocked (e : env) (version : string) (w : world) (n : node) :
  let installed := file_dst e (platform_tag e) version in
  let link := TVM_PATH e +:+ "/terraform" in
  supported e →
  FS.isfile (w_fs w) installed = true →
  FS.isfile (w_fs w) link = false →
  w_fs w !! link = Some n →
  use_terraform e version w =
    Abort (Raise (OSError FileExistsError))
      (said w [EPrint ("Creating a symbolic link for " +:+ installed +:+ " to " +:+ link)]).
Proof.
  intros installed link Hos Hinst Hfile Hn.
  rewrite use_terraform_installed by done.
  by apply (repoint_blocked e _ w n).
Qed.

(** With the version installed and the link path free or resolving to a
    regular file, [use_terraform] leaves the link pointing at the version. *)
Lemma use_terraform_relinks (e : env) (version : string) (w : world) :
  let installed := file_dst e (platform_tag e) version in
  let link := TVM_PATH e +:+ "/terraform" in
  supported e →
  is_Some (environ_PATH e) →
  FS.isfile (w_fs w) installed = true →
  FS.isfile (w_fs w) link = true ∨ w_fs w !! link = None →
  ∃ w', use_terraform e version w = Ok tt w' ∧
        w_fs w' = <[link := Symlink installed]> (w_fs w).
Proof.
  intros installed link Hos Hpath Hinst Hlink.
  rewrite use_terraform_installed by done.
  destruct Hlink as [Hfile|Hfree].
  - rewrite (repoint_linked _ _ _ Hfile).
    match goal with |- context [path_advice e ?w0] =>
      destruct (path_advice_run e w0) as (Hfs & _ & Hok) end.
    eexists. split; [by apply Hok|]. by rewrite Hfs.
  - rewrite (repoint_free _ _ _ Hfree).
    match goal with |- context [path_advice e ?w0] =>
      destruct (path_advice_run e w0) as (Hfs & _ & Hok) end.
    eexists. split; [by apply Hok|]. by rewrite Hfs.
Qed.

(** C2, on the store [dangling_link]: version 1.5.0 is installed and the
    active link is a symbolic link whose target does not exist.
    [use_terraform] does not remove the link: [os.path.isfile] is false for
    it, so [os.symlink] raises [FileExistsError] and the link still points
    at the missing file. *)
Theorem C2_dangling_link_not_replaced :
  FS.islink (w_fs dangling_link) active_link = true ∧
  FS.exists_ (w_fs dangling_link) active_link = false ∧
  FS.isfile (w_fs dangling_link) bin_150 = true ∧
  use_terraform linux_host "1.5.0" dangling_link =
    Abort (Raise (OSError FileExistsError))
      (said dangling_link
         [EPrint ("Creating a symbolic link for " +:+ bin_150 +:+ " to " +:+ active_link)]) ∧
  w_fs (world_of (use_terraform linux_host "1.5.0" dangling_link)) !! active_link =
    Some (Symlink bin_140).
Proof.
  split; [reflexivity|]. split; [reflexivity|]. split; [reflexivity|].
  assert (use_terraform linux_host "1.5.0" dangling_link =
    Abort (Raise (OSError FileExistsError))
      (said dangling_link
         [EPrint ("Creating a symbolic link for " +:+ bin_150 +:+ " to " +:+ active_link)]))
    as Hrun.
  { apply (use_terraform_blocked linux_host "1.5.0" dangling_link (Symlink bin_140));
      [by right|reflexivity|reflexivity|reflexivity]. }
  split; [exact Hrun|]. by rewrite Hrun.
Qed.




(** ** [list_versions] *)



(** *** The order of the rows *)

Global Instance str_ge_trans : Transitive str_ge.
Proof. intros a b c Hab Hbc. unfold str_ge in *. by etrans. Qed.

Global Instance str_ge_total : Total str_ge.
Proof. intros a b. unfold str_ge. apply (total String.le). Qed.







(** *** The marks *)






